(** * haleyrc/server: an HTTP server wrapper with graceful shutdown

    Shallow embedding of [server.go] (package [server]) and verification of
    its specification.

    The package wraps Go's [net/http] server.  Three things are modelled
    from the source itself: the constructor [New], the accessor [Addr] and
    the blocking entry point [ListenAndServe] with its helper [shutdown].
    What the source calls into (the [time], [net], [context] and [net/http]
    packages of the Go standard library and the Go scheduler) is modelled
    after the documented contract of those packages, in modules that carry
    their names. *)

From Stdlib Require Import ZArith NArith List String Ascii Bool Lia.
Import ListNotations.
Local Open Scope string_scope.
Local Open Scope list_scope.

(* ================================================================== *)
(** ** Go error values *)

(** The concrete error values that can flow through the program.  Go
    compares [error] interface values by identity; the three sentinels of
    the standard library are distinct constructors and every other error
    value (a [*net.OpError] from bind, accept or close, ...) is identified
    by its message. *)
Inductive errorValue : Type :=
| errServerClosed
| errDeadlineExceeded
| errCanceled
| errOther (msg : string).

(** The Go interface type [error]: [nil] or an error value. *)
Definition error : Type := option errorValue.
Definition nil : error := None.

Definition errorValue_eq_dec (a b : errorValue) : {a = b} + {a <> b}.
Proof. decide equality. apply string_dec. Defined.

Definition error_eq_dec (a b : error) : {a = b} + {a <> b}.
Proof. decide equality. apply errorValue_eq_dec. Defined.

(** [a != b] on error values. *)
Definition error_neqb (a b : error) : bool :=
  if error_eq_dec a b then false else true.

(* ================================================================== *)
(** ** Package time *)

Module time.

(** [time.Duration] is an [int64] count of nanoseconds. *)
Definition Duration : Type := Z.

Definition Nanosecond : Duration := 1%Z.
Definition Microsecond : Duration := (1000 * Nanosecond)%Z.
Definition Millisecond : Duration := (1000 * Microsecond)%Z.
Definition Second : Duration := (1000 * Millisecond)%Z.

Definition int64_min : Z := (- 2 ^ 63)%Z.
Definition int64_max : Z := (2 ^ 63 - 1)%Z.
Definition in_int64 (d : Duration) : Prop :=
  (int64_min <= d <= int64_max)%Z.

End time.

(** Instants of the monotonic clock, in nanoseconds.  The clock reads 0
    when [ListenAndServe] is entered in a fresh process. *)
Definition Instant : Type := N.

(* ================================================================== *)
(** ** Package net *)

Module net.

(** [strings.IndexByte(s, c) >= 0]. *)
Fixpoint hasByte (c : ascii) (s : string) : bool :=
  match s with
  | EmptyString => false
  | String a rest => if Ascii.eqb a c then true else hasByte c rest
  end.

(** [net.JoinHostPort]: a host that contains a colon is taken for a
    literal IPv6 address and bracketed. *)
Definition JoinHostPort (host port : string) : string :=
  if hasByte ":" host
  then ("[" ++ host ++ "]:" ++ port)%string
  else (host ++ ":" ++ port)%string.

End net.

(* ================================================================== *)
(** ** Package context *)

Module context.

(** Contexts, as trees of derivation.  [Signal] is a context owned by
    the caller: whatever mechanism the caller uses to request a stop, it
    shows as the instant at which [Done()] is closed (or never) and the
    error [Err()] reports from then on.  [WithDeadline] is what
    [context.WithTimeout] builds: a child of [parent] that is also done
    when the clock reaches [deadline]. *)
Inductive Context : Type :=
| Background
| Signal (fires : option Instant) (cause : errorValue)
| WithDeadline (parent : Context) (deadline : Instant).

Definition DeadlineExceeded : error := Some errDeadlineExceeded.
Definition Canceled : error := Some errCanceled.

(** The instant at which [ctx.Done()] is closed; [None] when it never
    is. *)
Fixpoint Done_at (ctx : Context) : option Instant :=
  match ctx with
  | Background => None
  | Signal fires _ => fires
  | WithDeadline parent deadline =>
      match Done_at parent with
      | Some tp => Some (N.min tp deadline)
      | None => Some deadline
      end
  end.

(** [ctx.Err()] once [ctx] is done: the parent's error when the parent
    was done no later than the deadline, [DeadlineExceeded] otherwise. *)
Fixpoint Err (ctx : Context) : error :=
  match ctx with
  | Background => nil
  | Signal (Some _) cause => Some cause
  | Signal None _ => nil
  | WithDeadline parent deadline =>
      match Done_at parent with
      | Some tp => if (tp <=? deadline)%N then Err parent else DeadlineExceeded
      | None => DeadlineExceeded
      end
  end.

(** The contexts [ctx] was derived from, nearest first. *)
Fixpoint ancestors (ctx : Context) : list Context :=
  match ctx with
  | Background => []
  | Signal _ _ => []
  | WithDeadline parent _ => parent :: ancestors parent
  end.

(** [ctx] is, or was derived from, [c]. *)
Definition derives_from (ctx c : Context) : Prop :=
  ctx = c \/ In c (ancestors ctx).

End context.

(* ================================================================== *)
(** ** Package net/http: the server value *)

Module http.

(** The fields of [http.Server] that the composite literal in [New]
    sets.  [Handler] is an opaque capability of the caller. *)
Record Server (H : Type) : Type := mkServer {
  Addr : string;
  Handler : H;
  ReadTimeout : time.Duration;
  WriteTimeout : time.Duration;
  IdleTimeout : time.Duration
}.

Arguments mkServer {H}.
Arguments Addr {H}.
Arguments Handler {H}.
Arguments ReadTimeout {H}.
Arguments WriteTimeout {H}.
Arguments IdleTimeout {H}.

Definition ErrServerClosed : error := Some errServerClosed.

End http.

(* ================================================================== *)
(** ** Package server: construction and accessor *)

(** [type Server struct { s *http.Server }].  The field is a pointer;
    [None] is the nil pointer of the zero value [Server{}]. *)
Record Server (H : Type) : Type := mkServer {
  s : option (http.Server H)
}.

Arguments mkServer {H}.
Arguments s {H}.

(** [func New(port string, h http.Handler) Server] *)
Definition New {H : Type} (port : string) (h : H) : Server H :=
  {| s := Some {|
       http.Addr := net.JoinHostPort "0.0.0.0" port;
       http.Handler := h;
       http.ReadTimeout := (5 * time.Second)%Z;
       http.WriteTimeout := (5 * time.Second)%Z;
       http.IdleTimeout := (5 * time.Second)%Z
     |}
  |}.

(** [func (s Server) Addr() string].  Reading a field through a nil
    pointer panics: the result is [None] then. *)
Definition Addr {H : Type} (srv : Server H) : option string :=
  match s srv with
  | Some hs => Some (http.Addr hs)
  | None => None
  end.

(* ================================================================== *)
(** ** The Go runtime and the transport, as one coordinator sees them *)

(** The case a [select] statement took. *)
Inductive SelectCase : Type :=
| CaseDone                       (* case <-ctx.Done(): *)
| CaseErrC (err : error).        (* case err := <-errC: *)

(** What a run does to the world around it, in the order it does it. *)
Inductive Event : Type :=
| EvGo (t : Instant)                               (* serve goroutine started *)
| EvSelect (t : Instant) (c : SelectCase)          (* a receive of the select completed *)
| EvShutdown (t : Instant) (ctx : context.Context) (* http.Server.Shutdown(ctx) entered *)
| EvCancel (t : Instant).                          (* the deferred cancel() ran *)

(** The state a run threads through: the clock, the [inShutdown] flag of
    the [http.Server] object behind the pointer [s.s] (it outlives a run),
    and the trace of the run so far. *)
Record RT : Type := mkRT {
  clock : Instant;
  inShutdown : bool;
  trace : list Event
}.

(** What the environment decides: the transport, the clients and the
    scheduler.
    - [serve_exit]: how long after its start the serve loop fails on its
      own, and with which error; [None] when it would serve for ever.
      ([http.Server.ListenAndServe] always returns a non-nil error.)
    - [tie_done]: the pseudo-random choice of [select] when both of its
      cases can proceed; [true] picks [ctx.Done()].
    - [ln_close]: the result of closing the listeners in [Shutdown].
    - [drain]: how long after [Shutdown] is entered all connections are
      idle; [None] when some request never finishes. *)
Record World : Type := mkWorld {
  serve_exit : option (N * errorValue);
  tie_done : bool;
  ln_close : error;
  drain : option N
}.

(** A call returns a value, blocks for ever, or panics. *)
Inductive Res (A : Type) : Type :=
| Returned (a : A) (rt : RT)
| Blocked (rt : RT)
| Panicked (rt : RT).

Arguments Returned {A}.
Arguments Blocked {A}.
Arguments Panicked {A}.

Definition Go (A : Type) : Type := RT -> Res A.

Definition ret {A : Type} (a : A) : Go A := fun rt => Returned a rt.

Definition bind {A B : Type} (m : Go A) (k : A -> Go B) : Go B :=
  fun rt =>
    match m rt with
    | Returned a rt' => k a rt'
    | Blocked rt' => Blocked rt'
    | Panicked rt' => Panicked rt'
    end.

Notation "x <- m ;; k" := (bind m (fun x => k))
  (at level 61, m at next level, right associativity).
Notation "' p <- m ;; k" := (bind m (fun x => match x with p => k end))
  (at level 61, p pattern, m at next level, right associativity).

Definition emit (e : Event) (rt : RT) : RT :=
  {| clock := clock rt; inShutdown := inShutdown rt;
     trace := trace rt ++ [e] |}.

Definition at_instant (t : Instant) (rt : RT) : RT :=
  {| clock := t; inShutdown := inShutdown rt; trace := trace rt |}.

Definition set_inShutdown (rt : RT) : RT :=
  {| clock := clock rt; inShutdown := true; trace := trace rt |}.

(** The value returned and the final state of a call. *)
Definition result {A : Type} (r : Res A) : option A :=
  match r with
  | Returned a _ => Some a
  | _ => None
  end.

Definition final {A : Type} (r : Res A) : RT :=
  match r with
  | Returned _ rt => rt
  | Blocked rt => rt
  | Panicked rt => rt
  end.

(** A buffered channel of capacity one that receives exactly one send:
    the instant at which its value can be received, and the value. *)
Definition Chan : Type := option (Instant * error).

(** What a call that runs in a goroutine of its own comes to. *)
Inductive Future : Type :=
| Never
| At (t : Instant) (v : error)
| Crash.

Section Runtime.

Variable w : World.

(** [context.WithTimeout(parent, timeout)]: the child context whose
    deadline is [time.Now().Add(timeout)], and its cancel function. *)
Definition context_WithTimeout (parent : context.Context)
    (timeout : time.Duration) : Go (context.Context * Go unit) :=
  fun rt =>
    Returned
      (context.WithDeadline parent (clock rt + Z.to_N timeout)%N,
       fun rt' => Returned tt (emit (EvCancel (clock rt')) rt'))
      rt.

(** [ListenAndServe] of [*http.Server], started at the current instant.
    A server on which [Shutdown] was called returns [ErrServerClosed] at
    once; otherwise the call returns when the serve loop fails.  A nil
    receiver is dereferenced at the first step. *)
Definition http_ListenAndServe {H : Type} (srv : option (http.Server H))
    (rt : RT) : Future :=
  match srv with
  | None => Crash
  | Some _ =>
      if inShutdown rt then At (clock rt) http.ErrServerClosed
      else match serve_exit w with
           | Some (d, e) => At (clock rt + d)%N (Some e)
           | None => Never
           end
  end.

(** [errC := make(chan error, 1); go func() { errC <- f() }()].  The
    send never blocks, so the value can be received from the instant [f]
    returns.  A panic in the goroutine takes the process down. *)
Definition go_send (f : RT -> Future) : Go Chan :=
  fun rt =>
    let rt' := emit (EvGo (clock rt)) rt in
    match f rt with
    | Never => Returned None rt'
    | At t v => Returned (Some (t, v)) rt'
    | Crash => Panicked rt'
    end.

Definition took (t : Instant) (c : SelectCase) (rt : RT) : Res SelectCase :=
  Returned c (emit (EvSelect t c) (at_instant t rt)).

(** [select { case <-ctx.Done(): ... case err := <-errC: ... }].  A
    communication that could already proceed when the statement is
    evaluated counts from that instant.  The one that can proceed first
    is taken; when both can, the scheduler chooses; when neither ever
    can, the statement blocks for ever. *)
Definition select (ctx : context.Context) (errC : Chan) : Go SelectCase :=
  fun rt =>
    let now := clock rt in
    match context.Done_at ctx, errC with
    | None, None => Blocked rt
    | Some td, None => took (N.max now td) CaseDone rt
    | None, Some (te, v) => took (N.max now te) (CaseErrC v) rt
    | Some td, Some (te, v) =>
        let td' := N.max now td in
        let te' := N.max now te in
        if (td' <? te')%N then took td' CaseDone rt
        else if (te' <? td')%N then took te' (CaseErrC v) rt
        else if tie_done w then took td' CaseDone rt
        else took te' (CaseErrC v) rt
    end.

(** [Shutdown(ctx)] of [*http.Server]: marks the server as shutting down,
    closes the listeners, then waits for the connections to become idle.
    It returns the result of closing the listeners once they are, and
    [ctx.Err()] if [ctx] is done first. *)
Definition http_Shutdown {H : Type} (srv : option (http.Server H))
    (ctx : context.Context) : Go error :=
  fun rt =>
    match srv with
    | None => Panicked rt
    | Some _ =>
        let now := clock rt in
        let rt1 := emit (EvShutdown now ctx) (set_inShutdown rt) in
        let idle := option_map (fun d => (now + d)%N) (drain w) in
        let dead := option_map (N.max now) (context.Done_at ctx) in
        match idle, dead with
        | Some ti, Some td =>
            if (ti <=? td)%N then Returned (ln_close w) (at_instant ti rt1)
            else Returned (context.Err ctx) (at_instant td rt1)
        | Some ti, None => Returned (ln_close w) (at_instant ti rt1)
        | None, Some td => Returned (context.Err ctx) (at_instant td rt1)
        | None, None => Blocked rt1
        end
    end.

(* ================================================================== *)
(** ** Package server: running *)

(** [func (s Server) shutdown() error] *)
Definition shutdown {H : Type} (srv : Server H) : Go error :=
  ' (ctx, cancel) <-
    context_WithTimeout context.Background (10 * time.Second)%Z ;;
  r <- http_Shutdown (s srv) ctx ;;
  _ <- cancel ;;
  ret r.

(** [func (s Server) ListenAndServe(ctx context.Context) error] *)
Definition ListenAndServe {H : Type} (srv : Server H)
    (ctx : context.Context) : Go error :=
  errC <- go_send (http_ListenAndServe (s srv)) ;;
  c <- select ctx errC ;;
  match c with
  | CaseDone => shutdown srv
  | CaseErrC err =>
      if error_neqb err http.ErrServerClosed then ret err
      else ret nil
  end.

End Runtime.

(** A fresh process: the clock reads 0, nothing was shut down. *)
Definition boot : RT := {| clock := 0%N; inShutdown := false; trace := [] |}.

(** The state in which a later run on the same coordinator starts. *)
Definition again (rt : RT) : RT :=
  {| clock := clock rt; inShutdown := inShutdown rt; trace := [] |}.

(** One call of [ListenAndServe] in a fresh process: the specification
    has each coordinator built once and run once. *)
Definition Run {H : Type} (w : World) (srv : Server H)
    (ctx : context.Context) : Res error :=
  ListenAndServe w srv ctx boot.

(* ================================================================== *)
(** ** Vocabulary of the specification *)

(** The terminal result of a run, as the specification names it. *)
Inductive Outcome : Type :=
| CleanExit
| AbnormalExit (cause : errorValue)
| ShutdownTimeout.

(** The Outcome a returned [error] stands for on the path the [select]
    took.  [nil] is CleanExit.  A non-nil error is AbnormalExit with that
    cause when it is the terminal error of the serve loop, and
    ShutdownTimeout when it is the deadline error of the shutdown.  Any
    other error of the shutdown path is none of the three. *)
Definition outcome_on (path : SelectCase) (r : error) : option Outcome :=
  match r with
  | None => Some CleanExit
  | Some e =>
      match path with
      | CaseErrC _ => Some (AbnormalExit e)
      | CaseDone =>
          match e with
          | errDeadlineExceeded => Some ShutdownTimeout
          | _ => None
          end
      end
  end.

(** The receives a trace shows, in order. *)
Fixpoint observations (tr : list Event) : list SelectCase :=
  match tr with
  | [] => []
  | EvSelect _ c :: rest => c :: observations rest
  | _ :: rest => observations rest
  end.

(** The calls of [Shutdown] a trace shows: when, and with which context. *)
Fixpoint shutdowns (tr : list Event) : list (Instant * context.Context) :=
  match tr with
  | [] => []
  | EvShutdown t c :: rest => (t, c) :: shutdowns rest
  | _ :: rest => shutdowns rest
  end.

(** The Outcome of a call: that of its returned value on the one path it
    took.  A call that has not returned has none. *)
Definition outcome_of (r : Res error) : option Outcome :=
  match r with
  | Returned v rt =>
      match observations (trace rt) with
      | [c] => outcome_on c v
      | _ => None
      end
  | _ => None
  end.

(** Instants are those of a run that starts at 0 in [boot].

    The cancellation signal fires at [tc], before the serve loop
    terminates (if it ever does). *)
Definition cancel_first (w : World) (ctx : context.Context)
    (tc : Instant) : Prop :=
  context.Done_at ctx = Some tc /\
  match serve_exit w with
  | Some (ts, _) => (tc < ts)%N
  | None => True
  end.

(** The serve loop terminates at [ts] with [e], before the cancellation
    signal fires (if it ever does). *)
Definition serve_first (w : World) (ctx : context.Context)
    (ts : Instant) (e : errorValue) : Prop :=
  serve_exit w = Some (ts, e) /\
  match context.Done_at ctx with
  | Some tc => (ts < tc)%N
  | None => True
  end.


(** Cancellation wins the race at [tc]: it fires before the serve loop
    terminates, or at the same instant with the scheduler choosing it. *)
Definition cancel_wins (w : World) (ctx : context.Context)
    (tc : Instant) : Prop :=
  context.Done_at ctx = Some tc /\
  match serve_exit w with
  | Some (ts, _) => (tc < ts)%N \/ (tc = ts /\ tie_done w = true)
  | None => True
  end.

(** The serve loop wins the race at [ts], terminating with [e]. *)
Definition serve_wins (w : World) (ctx : context.Context)
    (ts : Instant) (e : errorValue) : Prop :=
  serve_exit w = Some (ts, e) /\
  match context.Done_at ctx with
  | Some tc => (ts < tc)%N \/ (ts = tc /\ tie_done w = false)
  | None => True
  end.

(** Ten seconds, in nanoseconds. *)
Definition ten_seconds : N := 10000000000%N.

(** What [Shutdown] under a ten-second deadline comes to in world [w]:
    the value it returns and how long it takes. *)
Definition drained (w : World) : error * N :=
  match drain w with
  | Some d =>
      if (d <=? ten_seconds)%N then (ln_close w, d)
      else (context.DeadlineExceeded, ten_seconds)
  | None => (context.DeadlineExceeded, ten_seconds)
  end.

(** The state in which a run that started in [boot] ends after the
    cancellation signal won at [tc]. *)
Definition after_shutdown (w : World) (tc : Instant) : RT :=
  {| clock := (tc + snd (drained w))%N;
     inShutdown := true;
     trace := [ EvGo 0%N;
                EvSelect tc CaseDone;
                EvShutdown tc
                  (context.WithDeadline context.Background
                     (tc + ten_seconds)%N);
                EvCancel (tc + snd (drained w))%N ] |}.

(** The state in which a run that started in [boot] ends after the serve
    loop terminated first, at [ts] with [e]. *)
Definition after_serve (ts : Instant) (e : errorValue) : RT :=
  {| clock := ts;
     inShutdown := false;
     trace := [ EvGo 0%N; EvSelect ts (CaseErrC (Some e)) ] |}.

(** Example inputs. *)
Definition never : context.Context := context.Background.

Definition cancelAt (t : Instant) : context.Context :=
  context.Signal (Some t) errCanceled.

Definition addr_in_use : errorValue :=
  errOther "listen tcp 0.0.0.0:8080: bind: address already in use".

Definition close_failed : errorValue :=
  errOther "close tcp 0.0.0.0:8080: use of closed network connection".

(** Example worlds. *)

(** The world in which nothing ever happens: the server serves for
    ever. *)
Definition quiet : World :=
  {| serve_exit := None; tie_done := true; ln_close := nil; drain := Some 0%N |}.



(** The shutdown sub-protocol. *)

(** The state in which [shutdown] is entered when cancellation won at
    [tc]. *)
Definition draining (tc : Instant) : RT :=
  {| clock := tc;
     inShutdown := false;
     trace := [ EvGo 0%N; EvSelect tc CaseDone ] |}.



(** Further vocabulary. *)

(** The starts of a serve goroutine a trace shows. *)
Fixpoint spawns (tr : list Event) : nat :=
  match tr with
  | [] => 0%nat
  | EvGo _ :: rest => S (spawns rest)
  | _ :: rest => spawns rest
  end.


(* ================================================================== *)
(** ** Lemmas on the collaborators *)

Lemma ten_seconds_eq : Z.to_N (10 * time.Second)%Z = ten_seconds.
Proof. reflexivity. Qed.

Lemma error_neqb_closed (e : errorValue) :
  error_neqb (Some e) http.ErrServerClosed =
  if errorValue_eq_dec e errServerClosed then false else true.
Proof.
  unfold error_neqb, http.ErrServerClosed.
  destruct (error_eq_dec (Some e) (Some errServerClosed)) as [E | E];
    destruct (errorValue_eq_dec e errServerClosed) as [E' | E'];
    try reflexivity.
  - inversion E; contradiction.
  - subst e; contradiction.
Qed.

(** [Shutdown] under a context derived from [Background] alone whose
    deadline is ten seconds away, computed. *)
Lemma http_Shutdown_eq (w : World) (H : Type) (hs : http.Server H)
    (rt : RT) :
  http_Shutdown w (Some hs)
    (context.WithDeadline context.Background (clock rt + ten_seconds)%N) rt =
  Returned (fst (drained w))
    {| clock := (clock rt + snd (drained w))%N;
       inShutdown := true;
       trace := trace rt ++
         [ EvShutdown (clock rt)
             (context.WithDeadline context.Background
                (clock rt + ten_seconds)%N) ] |}.
Proof.
  unfold http_Shutdown.
  cbn [context.Done_at option_map].
  assert (Hmax : N.max (clock rt) (clock rt + ten_seconds) =
                 (clock rt + ten_seconds)%N) by (apply N.max_r; lia).
  rewrite Hmax.
  unfold drained.
  destruct (drain w) as [d |]; cbn [option_map].
  - destruct (N.leb_spec d ten_seconds) as [Hle | Hgt].
    + assert (Hc : (clock rt + d <=? clock rt + ten_seconds)%N = true)
        by (apply N.leb_le; lia).
      rewrite Hc. reflexivity.
    + assert (Hc : (clock rt + d <=? clock rt + ten_seconds)%N = false)
        by (apply N.leb_gt; lia).
      rewrite Hc. reflexivity.
  - reflexivity.
Qed.

(** [shutdown], computed: [Shutdown] runs under that context and its
    value is returned as it is, after the deferred [cancel]. *)
Lemma shutdown_eq (w : World) (H : Type) (srv : Server H)
    (hs : http.Server H) (rt : RT) :
  s srv = Some hs ->
  shutdown w srv rt =
  Returned (fst (drained w))
    {| clock := (clock rt + snd (drained w))%N;
       inShutdown := true;
       trace := trace rt ++
         [ EvShutdown (clock rt)
             (context.WithDeadline context.Background
                (clock rt + ten_seconds)%N);
           EvCancel (clock rt + snd (drained w))%N ] |}.
Proof.
  intros Hs.
  unfold shutdown, bind, context_WithTimeout, ret.
  rewrite Hs, ten_seconds_eq, http_Shutdown_eq.
  unfold emit. cbn [clock inShutdown trace].
  rewrite <- app_assoc. reflexivity.
Qed.

(* ================================================================== *)
(** ** The three ways a run in a fresh process can go *)

Section Runs.

Context {H : Type}.
Variable w : World.
Variable srv : Server H.
Variable hs : http.Server H.
Hypothesis srv_set : s srv = Some hs.

(** Cancellation first: the run is the shutdown, entered at the instant
    the signal fired. *)
Lemma Run_cancel_first (ctx : context.Context) (tc : Instant) :
  cancel_first w ctx tc ->
  Run w srv ctx = Returned (fst (drained w)) (after_shutdown w tc).
Proof.
  intros [Hd Hs].
  unfold Run, ListenAndServe, bind, go_send, http_ListenAndServe.
  rewrite srv_set. cbn [inShutdown boot clock].
  assert (Hsel : forall errC,
             match errC with
             | Some (te, _) => (tc < te)%N
             | None => True
             end ->
             select w ctx errC (emit (EvGo 0%N) boot) =
             took tc CaseDone (emit (EvGo 0%N) boot)).
  { intros errC HerrC. unfold select. rewrite Hd.
    destruct errC as [[te v] |]; cbn [clock emit boot];
      rewrite ?N.max_0_l; [| reflexivity].
    apply N.ltb_lt in HerrC. rewrite HerrC. reflexivity. }
  destruct (serve_exit w) as [[ts e] |].
  - rewrite Hsel by (rewrite N.add_0_l; exact Hs).
    unfold took. rewrite (shutdown_eq w H srv hs _ srv_set). reflexivity.
  - rewrite Hsel by exact I.
    unfold took. rewrite (shutdown_eq w H srv hs _ srv_set). reflexivity.
Qed.

(** Serve loop first: the run ends at the instant the loop terminated,
    with the loop's error unless that error is [ErrServerClosed]. *)
Lemma Run_serve_first (ctx : context.Context) (ts : Instant)
    (e : errorValue) :
  serve_first w ctx ts e ->
  Run w srv ctx =
  Returned (if errorValue_eq_dec e errServerClosed then nil else Some e)
    (after_serve ts e).
Proof.
  intros [Hs Hd].
  unfold Run, ListenAndServe, bind, go_send, http_ListenAndServe.
  rewrite srv_set. cbn [inShutdown boot clock]. rewrite Hs.
  rewrite N.add_0_l.
  unfold select.
  destruct (context.Done_at ctx) as [tc |]; cbn [clock emit boot];
    rewrite ?N.max_0_l.
  - assert (Hge : (tc <? ts)%N = false) by (apply N.ltb_ge; lia).
    apply N.ltb_lt in Hd. rewrite Hge, Hd.
    unfold took. rewrite error_neqb_closed.
    destruct (errorValue_eq_dec e errServerClosed); reflexivity.
  - unfold took. rewrite error_neqb_closed.
    destruct (errorValue_eq_dec e errServerClosed); reflexivity.
Qed.

(** Neither: the run blocks in its [select]. *)
Lemma Run_idle (ctx : context.Context) :
  context.Done_at ctx = None ->
  serve_exit w = None ->
  Run w srv ctx = Blocked (emit (EvGo 0%N) boot).
Proof.
  intros Hd Hs.
  unfold Run, ListenAndServe, bind, go_send, http_ListenAndServe.
  rewrite srv_set. cbn [inShutdown boot]. rewrite Hs.
  unfold select. rewrite Hd. reflexivity.
Qed.

(** Both at the same instant [t]: the scheduler's choice decides which of
    the two runs above this one is. *)
Lemma Run_tie (ctx : context.Context) (t : Instant) (e : errorValue) :
  context.Done_at ctx = Some t ->
  serve_exit w = Some (t, e) ->
  Run w srv ctx =
  if tie_done w
  then Returned (fst (drained w)) (after_shutdown w t)
  else Returned (if errorValue_eq_dec e errServerClosed then nil else Some e)
         (after_serve t e).
Proof.
  intros Hd Hs.
  unfold Run, ListenAndServe, bind, go_send, http_ListenAndServe.
  rewrite srv_set. cbn [inShutdown boot clock]. rewrite Hs.
  rewrite N.add_0_l.
  unfold select. rewrite Hd. cbn [clock emit boot]. rewrite ?N.max_0_l.
  rewrite N.ltb_irrefl.
  destruct (tie_done w); unfold took.
  - rewrite (shutdown_eq w H srv hs _ srv_set). reflexivity.
  - rewrite error_neqb_closed.
    destruct (errorValue_eq_dec e errServerClosed); reflexivity.
Qed.

(** Cancellation wins. *)
Lemma Run_cancel_wins (ctx : context.Context) (tc : Instant) :
  cancel_wins w ctx tc ->
  Run w srv ctx = Returned (fst (drained w)) (after_shutdown w tc).
Proof.
  intros [Hd Hs].
  destruct (serve_exit w) as [[ts e] |] eqn:Hse.
  - destruct Hs as [Hlt | [Heq Htie]].
    + apply Run_cancel_first. split; [exact Hd |]. rewrite Hse. exact Hlt.
    + subst ts. rewrite (Run_tie ctx tc e Hd Hse), Htie. reflexivity.
  - apply Run_cancel_first. split; [exact Hd |]. rewrite Hse. exact I.
Qed.

(** The serve loop wins. *)
Lemma Run_serve_wins (ctx : context.Context) (ts : Instant)
    (e : errorValue) :
  serve_wins w ctx ts e ->
  Run w srv ctx =
  Returned (if errorValue_eq_dec e errServerClosed then nil else Some e)
    (after_serve ts e).
Proof.
  intros [Hs Hd].
  destruct (context.Done_at ctx) as [tc |] eqn:Hda.
  - destruct Hd as [Hlt | [Heq Htie]].
    + apply Run_serve_first. split; [exact Hs |]. rewrite Hda. exact Hlt.
    + subst tc. rewrite (Run_tie ctx ts e Hda Hs), Htie. reflexivity.
  - apply Run_serve_first. split; [exact Hs |]. rewrite Hda. exact I.
Qed.

(** Every run is one of the above. *)
Lemma Run_cases (ctx : context.Context) :
  (context.Done_at ctx = None /\ serve_exit w = None) \/
  (exists tc, cancel_wins w ctx tc) \/
  (exists ts e, serve_wins w ctx ts e).
Proof.
  unfold cancel_wins, serve_wins.
  destruct (context.Done_at ctx) as [tc |];
    destruct (serve_exit w) as [[ts e] |].
  - destruct (N.lt_total tc ts) as [Hlt | [Heq | Hgt]].
    + right; left. exists tc. split; [reflexivity | left; exact Hlt].
    + destruct (tie_done w) eqn:Htie.
      * right; left. exists tc. split; [reflexivity |].
        right. split; [exact Heq | reflexivity].
      * right; right. exists ts, e. split; [reflexivity |].
        right. split; [symmetry; exact Heq | reflexivity].
    + right; right. exists ts, e. split; [reflexivity | left; exact Hgt].
  - right; left. exists tc. split; [reflexivity | exact I].
  - right; right. exists ts, e. split; [reflexivity | exact I].
  - left. split; reflexivity.
Qed.

End Runs.

Lemma cancel_first_wins (w : World) (ctx : context.Context) (tc : Instant) :
  cancel_first w ctx tc -> cancel_wins w ctx tc.
Proof.
  unfold cancel_first, cancel_wins. intros [Hd Hs]. split; [exact Hd |].
  destruct (serve_exit w) as [[ts e] |]; [left; exact Hs | exact I].
Qed.


(** A server built by [New] holds a non-nil pointer. *)
Lemma New_set (H : Type) (port : string) (h : H) :
  exists hs, s (New port h) = Some hs.
Proof. eexists. reflexivity. Qed.

Lemma outcome_after_shutdown (w : World) (tc : Instant) (v : error) :
  outcome_of (Returned v (after_shutdown w tc)) = outcome_on CaseDone v.
Proof. reflexivity. Qed.



(* ================================================================== *)
(** ** Construction and address *)

(** C8. For every port passed to [New], [Addr()] returns the wildcard
    interface 0.0.0.0 joined with exactly that port.  [Addr] is a
    function of the server value alone: it has no access to the state of
    the run, and on a server built by [New] it cannot fail, the pointer it
    reads through being non-nil. *)
Theorem Addr_New_wildcard_port :
  forall (H : Type) (port : string) (h : H),
    Addr (New port h) = Some ("0.0.0.0" ++ ":" ++ port)%string.
Proof. intros H port h. reflexivity. Qed.

(** C9. [New(port, handler)] always yields a coordinator: a total
    function with no error result and no access to the state of the run
    (no goroutine is started and nothing is listened on before
    [ListenAndServe]).  The configuration it builds binds to all
    interfaces on the given port, carries the handler it was given, and
    has its read, write and idle timeouts at 5 seconds each, which is
    5 000 000 000 ns and fits the 64-bit [Duration]. *)
Theorem New_builds_config :
  forall (H : Type) (port : string) (h : H),
    New port h =
    {| s := Some {| http.Addr := ("0.0.0.0:" ++ port)%string;
                    http.Handler := h;
                    http.ReadTimeout := 5000000000%Z;
                    http.WriteTimeout := 5000000000%Z;
                    http.IdleTimeout := 5000000000%Z |} |} /\
    (5 * time.Second)%Z = 5000000000%Z /\
    time.in_int64 (5 * time.Second)%Z.
Proof.
  intros H port h. repeat split; try reflexivity.
  - unfold time.int64_min. vm_compute. discriminate.
  - unfold time.int64_max. vm_compute. discriminate.
Qed.

(* ================================================================== *)
(** ** The cancellation path *)

(** C3. When cancellation wins the race, the run calls [Shutdown] once,
    at the instant the signal was observed, under a context of its own:
    derived from [Background] and nothing else, so not from the caller's
    context, with a deadline exactly 10 seconds (10 000 000 000 ns) after
    that instant.  The caller's context is done by then; the new one is
    not. *)
Theorem shutdown_deadline_is_fresh :
  forall (H : Type) (w : World) (port : string) (h : H)
         (ctx : context.Context) (tc : Instant),
    cancel_wins w ctx tc ->
    let c := context.WithDeadline context.Background (tc + ten_seconds)%N in
    shutdowns (trace (final (Run w (New port h) ctx))) = [(tc, c)] /\
    context.ancestors c = [context.Background] /\
    ~ context.derives_from c ctx /\
    context.Done_at ctx = Some tc /\
    context.Done_at c = Some (tc + 10000000000)%N /\
    (tc < tc + 10000000000)%N /\
    Z.to_N (10 * time.Second)%Z = 10000000000%N.
Proof.
  intros H w port h ctx tc Hwin c.
  destruct (New_set H port h) as [hs Hs].
  rewrite (Run_cancel_wins w (New port h) hs Hs ctx tc Hwin).
  destruct Hwin as [Hd _].
  repeat split; try reflexivity; try exact Hd; try lia.
  intros [Heq | Hin].
  - subst c. rewrite <- Heq in Hd. cbn in Hd. unfold ten_seconds in Hd.
    inversion Hd. lia.
  - cbn in Hin. destruct Hin as [Hbg | []].
    rewrite <- Hbg in Hd. discriminate Hd.
Qed.

(** The signal fires at instant 7 in a world that serves for ever: the
    shutdown context expires at 10 000 000 007. *)
Lemma shutdown_deadline_is_fresh_witness :
  cancel_wins (mkWorld None true nil (Some 3%N)) (cancelAt 7%N) 7%N /\
  shutdowns (trace (final
    (Run (mkWorld None true nil (Some 3%N)) (New "8080" tt) (cancelAt 7%N))))
  = [(7%N, context.WithDeadline context.Background 10000000007%N)].
Proof.
  assert (Hwin : cancel_wins (mkWorld None true nil (Some 3%N))
                   (cancelAt 7%N) 7%N) by (split; [reflexivity | exact I]).
  split; [exact Hwin |].
  exact (proj1 (shutdown_deadline_is_fresh unit _ "8080" tt _ _ Hwin)).
Defined.

(** C10. On the cancellation path the run returns what [Shutdown]
    returned, as it is.  In particular, when the connections drain within
    the deadline and closing the listeners fails with [e], the caller
    receives [e]; unless [e] is the deadline error, that value is none of
    CleanExit, AbnormalExit and ShutdownTimeout. *)
Theorem cancel_path_returns_Shutdown_result :
  forall (H : Type) (w : World) (port : string) (h : H)
         (ctx : context.Context) (tc : Instant),
    cancel_wins w ctx tc ->
    result (Run w (New port h) ctx) =
    result (http_Shutdown w (s (New port h))
              (context.WithDeadline context.Background (tc + ten_seconds)%N)
              (draining tc)) /\
    (forall (e : errorValue) (d : N),
        ln_close w = Some e -> drain w = Some d -> (d <= ten_seconds)%N ->
        result (Run w (New port h) ctx) = Some (Some e) /\
        (e <> errDeadlineExceeded ->
         outcome_of (Run w (New port h) ctx) = None)).
Proof.
  intros H w port h ctx tc Hwin.
  destruct (New_set H port h) as [hs Hs].
  rewrite (Run_cancel_wins w (New port h) hs Hs ctx tc Hwin).
  split.
  - rewrite Hs.
    change (tc + ten_seconds)%N with (clock (draining tc) + ten_seconds)%N.
    rewrite http_Shutdown_eq. reflexivity.
  - intros e d Hln Hdr Hle.
    assert (Hv : fst (drained w) = Some e).
    { unfold drained. rewrite Hdr.
      apply N.leb_le in Hle. rewrite Hle. exact Hln. }
    rewrite Hv. split; [reflexivity |].
    intros Hne. rewrite outcome_after_shutdown.
    destruct e; try reflexivity. contradiction.
Qed.

(** The signal fires at instant 7 and closing the listener fails. *)
Lemma cancel_path_returns_Shutdown_result_witness :
  cancel_wins (mkWorld None true (Some close_failed) (Some 2%N))
    (cancelAt 7%N) 7%N /\
  result (Run (mkWorld None true (Some close_failed) (Some 2%N))
            (New "8080" tt) (cancelAt 7%N)) = Some (Some close_failed) /\
  outcome_of (Run (mkWorld None true (Some close_failed) (Some 2%N))
                (New "8080" tt) (cancelAt 7%N)) = None.
Proof.
  assert (Hwin : cancel_wins (mkWorld None true (Some close_failed) (Some 2%N))
                   (cancelAt 7%N) 7%N) by (split; [reflexivity | exact I]).
  split; [exact Hwin |].
  destruct (proj2 (cancel_path_returns_Shutdown_result unit _ "8080" tt _ _ Hwin)
              close_failed 2%N eq_refl eq_refl) as [Hr Ho].
  - unfold ten_seconds. lia.
  - split; [exact Hr |]. apply Ho. discriminate.
Defined.




(* ------------------------------------------------------------------ *)
(** *** C2: what a run returns when cancellation fires first *)




(* ------------------------------------------------------------------ *)
(** *** C4: the two ends of the shutdown sub-protocol *)




(* ================================================================== *)
(** ** The serve-loop path *)

(** How that comes about with this package alone: a first run is
    cancelled and shuts the server down; a second run on the same
    coordinator, with a signal that never fires, finds the server closed
    and returns [nil] at once, having called [Shutdown] itself not
    once. *)
Example rerun_after_shutdown :
  let w := mkWorld None true nil (Some 3%N) in
  let first := Run w (New "8080" tt) (cancelAt 7%N) in
  let second := ListenAndServe w (New "8080" tt) never (again (final first)) in
  result first = Some nil /\
  inShutdown (final first) = true /\
  second =
  Returned nil
    {| clock := 10%N; inShutdown := true;
       trace := [ EvGo 10%N;
                  EvSelect 10%N (CaseErrC http.ErrServerClosed) ] |} /\
  shutdowns (trace (final second)) = [].
Proof. repeat split. Qed.




(* ------------------------------------------------------------------ *)
(** *** C5: a fault of the serve loop *)




(* ================================================================== *)
(** ** One run, one value *)




(* ================================================================== *)
(** ** Further properties of the code *)


(** A run on a server that is already shut down, under a signal that has
    not fired yet: the serve loop returns at once and so does the run. *)
Lemma ListenAndServe_when_shut_down (H : Type) (w : World) (srv : Server H)
    (hs : http.Server H) (ctx : context.Context) (rt : RT) :
  s srv = Some hs ->
  inShutdown rt = true ->
  match context.Done_at ctx with
  | Some t => (clock rt < t)%N
  | None => True
  end ->
  ListenAndServe w srv ctx rt =
  Returned nil
    {| clock := clock rt;
       inShutdown := true;
       trace := trace rt ++
         [ EvGo (clock rt);
           EvSelect (clock rt) (CaseErrC http.ErrServerClosed) ] |}.
Proof.
  intros Hs Hin Hlater.
  unfold ListenAndServe, bind, go_send, http_ListenAndServe.
  rewrite Hs, Hin. unfold select.
  destruct (context.Done_at ctx) as [t |]; cbn [clock emit];
    rewrite ?N.max_id.
  - assert (Hmax : N.max (clock rt) t = t) by (apply N.max_r; lia).
    rewrite Hmax.
    assert (H1 : (t <? clock rt)%N = false) by (apply N.ltb_ge; lia).
    apply N.ltb_lt in Hlater. rewrite H1, Hlater.
    unfold took, emit, at_instant. cbn [clock inShutdown trace].
    rewrite Hin, <- app_assoc. reflexivity.
  - unfold took, emit, at_instant. cbn [clock inShutdown trace].
    rewrite Hin, <- app_assoc. reflexivity.
Qed.

(** X1. The address determines the port: two coordinators built by [New]
    that report the same address were built for the same port. *)
Theorem Addr_determines_port :
  forall (H1 H2 : Type) (p1 p2 : string) (h1 : H1) (h2 : H2),
    Addr (New p1 h1) = Addr (New p2 h2) -> p1 = p2.
Proof.
  intros H1 H2 p1 p2 h1 h2 Heq.
  cbn in Heq. inversion Heq. reflexivity.
Qed.

(** The same port, with two different handlers. *)
Lemma Addr_determines_port_witness : "8080" = "8080".
Proof.
  exact (Addr_determines_port unit bool "8080" "8080" tt true eq_refl).
Defined.






(** X5. A coordinator cannot be restarted.  After a run in which
    cancellation won, the server is marked as shut down; a second run on
    the same coordinator, under a signal that has not fired when it
    starts, serves nothing: its serve loop returns [ErrServerClosed] at
    once and the run returns [nil] at the instant it started, without
    calling [Shutdown], whatever the world of the second run. *)
Theorem rerun_after_cancel_returns_nil_at_once :
  forall (H : Type) (w w2 : World) (port : string) (h : H)
         (ctx ctx2 : context.Context) (tc : Instant),
    cancel_wins w ctx tc ->
    match context.Done_at ctx2 with
    | Some t => (clock (final (Run w (New port h) ctx)) < t)%N
    | None => True
    end ->
    inShutdown (final (Run w (New port h) ctx)) = true /\
    ListenAndServe w2 (New port h) ctx2
      (again (final (Run w (New port h) ctx))) =
    Returned nil
      {| clock := clock (final (Run w (New port h) ctx));
         inShutdown := true;
         trace :=
           [ EvGo (clock (final (Run w (New port h) ctx)));
             EvSelect (clock (final (Run w (New port h) ctx)))
               (CaseErrC http.ErrServerClosed) ] |}.
Proof.
  intros H w w2 port h ctx ctx2 tc Hwin Hlater.
  destruct (New_set H port h) as [hs Hs].
  rewrite (Run_cancel_wins w (New port h) hs Hs ctx tc Hwin) in *.
  split; [reflexivity |].
  rewrite (ListenAndServe_when_shut_down H w2 (New port h) hs ctx2
             (again (final (Returned (fst (drained w))
                              (after_shutdown w tc)))) Hs eq_refl Hlater).
  reflexivity.
Qed.

(** The first run is cancelled at instant 7 and has drained at 10; the
    second waits on a signal that never fires. *)
Lemma rerun_after_cancel_returns_nil_at_once_witness :
  result
    (ListenAndServe quiet (New "8080" tt) never
       (again (final (Run (mkWorld None true nil (Some 3%N))
                        (New "8080" tt) (cancelAt 7%N))))) = Some nil.
Proof.
  rewrite (proj2 (rerun_after_cancel_returns_nil_at_once unit
                    (mkWorld None true nil (Some 3%N)) quiet "8080" tt
                    (cancelAt 7%N) never 7%N (conj eq_refl I) I)).
  reflexivity.
Defined.


(** X7. Every run starts the serve goroutine exactly once, as the first
    thing it does, and calls [Shutdown] at most once; this holds whether
    the run returns, blocks or panics, in any world and under any
    signal. *)
Theorem one_goroutine_one_shutdown :
  forall (H : Type) (w : World) (srv : Server H) (ctx : context.Context),
    spawns (trace (final (Run w srv ctx))) = 1%nat /\
    (exists rest, trace (final (Run w srv ctx)) = EvGo 0%N :: rest) /\
    (List.length (shutdowns (trace (final (Run w srv ctx)))) <= 1)%nat.
Proof.
  intros H w srv ctx.
  destruct (s srv) as [hs |] eqn:Hs.
  - destruct (Run_cases w ctx) as [[Hd Hse] | [[tc Hc] | [ts [e He]]]].
    + rewrite (Run_idle w srv hs Hs ctx Hd Hse).
      split; [reflexivity |]. split; [eexists; reflexivity | cbn; lia].
    + rewrite (Run_cancel_wins w srv hs Hs ctx tc Hc).
      split; [reflexivity |]. split; [eexists; reflexivity | cbn; lia].
    + rewrite (Run_serve_wins w srv hs Hs ctx ts e He).
      split; [reflexivity |]. split; [eexists; reflexivity | cbn; lia].
  - unfold Run, ListenAndServe, bind, go_send, http_ListenAndServe.
    rewrite Hs.
    split; [reflexivity |]. split; [eexists; reflexivity | cbn; lia].
Qed.

(** X8. When the signal fires at the very instant the serve loop fails,
    or both have happened before the run starts waiting, the scheduler
    decides.  If it takes the signal the fault is lost: the run shuts
    down and returns the result of the shutdown.  If it takes the serve
    loop the run returns the fault and does not shut down. *)
Theorem simultaneous_events_scheduler_decides :
  forall (H : Type) (w : World) (port : string) (h : H)
         (ctx : context.Context) (t : Instant) (e : errorValue),
    context.Done_at ctx = Some t ->
    serve_exit w = Some (t, e) ->
    e <> errServerClosed ->
    (tie_done w = true ->
     Run w (New port h) ctx =
     Returned (fst (drained w)) (after_shutdown w t)) /\
    (tie_done w = false ->
     Run w (New port h) ctx = Returned (Some e) (after_serve t e)).
Proof.
  intros H w port h ctx t e Hd Hse Hne.
  destruct (New_set H port h) as [hs Hs].
  split; intros Htie.
  - apply (Run_cancel_wins w (New port h) hs Hs).
    split; [exact Hd |]. rewrite Hse. right. split; [reflexivity | exact Htie].
  - rewrite (Run_serve_wins w (New port h) hs Hs ctx t e).
    + destruct (errorValue_eq_dec e errServerClosed);
        [contradiction | reflexivity].
    + split; [exact Hse |]. rewrite Hd.
      right. split; [reflexivity | exact Htie].
Qed.

(** The context is cancelled and the bind has failed before the run
    starts waiting, and the scheduler takes the signal: the run returns
    [nil]. *)
Lemma simultaneous_events_scheduler_decides_witness :
  result (Run (mkWorld (Some (0%N, addr_in_use)) true nil (Some 0%N))
            (New "8080" tt) (cancelAt 0%N)) = Some nil.
Proof.
  rewrite (proj1 (simultaneous_events_scheduler_decides unit
                    (mkWorld (Some (0%N, addr_in_use)) true nil (Some 0%N))
                    "8080" tt (cancelAt 0%N) 0%N addr_in_use
                    eq_refl eq_refl
                    ltac:(discriminate)) eq_refl).
  reflexivity.
Defined.


